(** * The Person read endpoint of django_adaptation.py

    A shallow embedding of the layered read path

      PersonView -> UseCaseInteractor -> PersonRepo -> (cache, database)

    Python values are dynamically typed, so they are embedded in one
    universe [value].  A method call on an injected collaborator
    (duck-typed in the source) is a node of a program tree; the
    collaborator's answer, a value or a raised exception, is supplied by a
    handler when the tree is run, and the run records the calls made. *)

From stdpp Require Import base gmap strings list.

Local Open Scope Z_scope.

(** ** Values and exceptions *)

(** [Person r d] is an instance of class [Person] with [_reference = r] and
    [_department_id = d]; the constructor performs no check on either.
    The other values are None, integers and strings; objects of further
    classes are not part of this universe. *)
Inductive value : Type :=
| VNone
| VInt (n : Z)
| VStr (s : string)
| Person (_reference _department_id : value).

(** The exception classes that the source names, and [OtherError cls] for an
    exception of any class [cls] unrelated to them. *)
Inductive exn : Type :=
| EntityDoesNotExist
| DoesNotExist
| AttributeError (attr : string)
| OtherError (cls : string).

(** What a call produces: a returned value or a raised exception. *)
Inductive outcome (A : Type) : Type :=
| Ok (a : A)
| Raised (e : exn).

Arguments Ok {A} a.
Arguments Raised {A} e.

#[global] Instance value_eq_dec : EqDecision value.
Proof. solve_decision. Defined.

#[global] Instance exn_eq_dec : EqDecision exn.
Proof. solve_decision. Defined.

#[global] Instance outcome_eq_dec {A} `{EqDecision A} : EqDecision (outcome A).
Proof. solve_decision. Defined.

Fixpoint value_to_tree (v : value) : gen_tree (Z + string) :=
  match v with
  | VNone => GenNode 0 []
  | VInt n => GenLeaf (inl n)
  | VStr s => GenLeaf (inr s)
  | Person r d => GenNode 1 [value_to_tree r; value_to_tree d]
  end.

Fixpoint tree_to_value (t : gen_tree (Z + string)) : value :=
  match t with
  | GenLeaf (inl n) => VInt n
  | GenLeaf (inr s) => VStr s
  | GenNode 1 [r; d] => Person (tree_to_value r) (tree_to_value d)
  | GenNode _ _ => VNone
  end.

#[global] Instance value_countable : Countable value.
Proof.
  refine (inj_countable' value_to_tree tree_to_value _).
  induction x as [| | |r IHr d IHd]; simpl; congruence.
Defined.

(** [person is None] *)
Definition is_None (v : value) : bool :=
  match v with VNone => true | _ => false end.

Module Person.

(** The two read-only properties of the class.  Reading them on an object
    of another class raises [AttributeError]. *)
Definition reference (person : value) : outcome value :=
  match person with
  | Person r _ => Ok r
  | _ => Raised (AttributeError "reference")
  end.

Definition department_id (person : value) : outcome value :=
  match person with
  | Person _ d => Ok d
  | _ => Raised (AttributeError "department_id")
  end.

End Person.

(** A Python dict with string keys. *)
Abbreviation dict := (gmap string value).

(** ** Programs over collaborator calls *)

(** [Vis e k] performs the call [e] on a collaborator and continues with
    [k] applied to what the call produced. *)
Inductive prog (E A : Type) : Type :=
| Ret (a : A)
| Vis (e : E) (k : outcome value -> prog E A).

Arguments Ret {E A} a.
Arguments Vis {E A} e k.

Fixpoint pbind {E A B} (p : prog E A) (f : A -> prog E B) : prog E B :=
  match p with
  | Ret a => f a
  | Vis e k => Vis e (fun o => pbind (k o) f)
  end.

(** A method body: it threads the mutable objects [S] it can reach, may
    raise, and may call collaborators.  State changes made before an
    exception is raised are kept, as in Python. *)
Definition M (E S A : Type) : Type := S -> prog E (outcome A * S).

#[global] Instance M_ret {E S} : MRet (M E S) :=
  fun A a s => Ret (Ok a, s).

#[global] Instance M_bind {E S} : MBind (M E S) :=
  fun A B f m s =>
    pbind (m s) (fun r =>
      match r with
      | (Ok a, s') => f a s'
      | (Raised e, s') => Ret (Raised e, s')
      end).

Definition raise {E S A} (e : exn) : M E S A :=
  fun s => Ret (Raised e, s).

Definition lift {E S A} (o : outcome A) : M E S A :=
  fun s => Ret (o, s).

Definition call {E S} (e : E) : M E S value :=
  fun s => Vis e (fun o => Ret (o, s)).

Definition get_state {E S} : M E S S :=
  fun s => Ret (Ok s, s).

Definition put_state {E S} (s : S) : M E S () :=
  fun _ => Ret (Ok (), s).

(** [try: body except: handler else: orelse].  [handler e = None] when no
    except clause matches [e].  Exceptions raised by the handler or by the
    else branch are not caught. *)
Definition try_except_else {E S A B} (body : M E S A)
    (handler : exn -> option (M E S B)) (orelse : A -> M E S B) : M E S B :=
  fun s =>
    pbind (body s) (fun r =>
      match r with
      | (Ok a, s') => orelse a s'
      | (Raised e, s') =>
          match handler e with
          | Some h => h s'
          | None => Ret (Raised e, s')
          end
      end).

(** ** Running a program against its collaborators *)

(** A handler answers each call from the collaborators' own state [W]. *)
Definition handler (E W : Type) : Type := E -> W -> outcome value * W.

Record run_result (E W A : Type) : Type := RunResult {
  returned : A;
  world : W;
  trace : list E
}.

Arguments RunResult {E W A} returned world trace.
Arguments returned {E W A} r.
Arguments world {E W A} r.
Arguments trace {E W A} r.

Fixpoint run {E W A} (h : handler E W) (p : prog E A) (w : W)
    : run_result E W A :=
  match p with
  | Ret a => RunResult a w []
  | Vis e k =>
      let r := run h (k (h e w).1) (h e w).2 in
      RunResult (returned r) (world r) (e :: trace r)
  end.

(** Implementing the calls [E1] by programs over [E2]: the factories' job. *)
Fixpoint link {E1 E2 A} (impl : E1 -> prog E2 (outcome value))
    (p : prog E1 A) : prog E2 A :=
  match p with
  | Ret a => Ret a
  | Vis e k => pbind (impl e) (fun o => link impl (k o))
  end.

(** ** Entity and use-case layers *)

(** The one call an interactor makes on the repository injected into it:
    [self.person_repo.get_person(reference=...)]. *)
Inductive repo_call : Type :=
| person_repo_get_person (reference : value).

(** The calls a [PersonRepo] makes on the two stores injected into it. *)
Inductive store_call : Type :=
| cache_repo_get_person (reference : value)
| db_repo_get_person (reference : value)
| cache_repo_save_person (person : value).

#[global] Instance repo_call_eq_dec : EqDecision repo_call.
Proof. solve_decision. Defined.

#[global] Instance store_call_eq_dec : EqDecision store_call.
Proof. solve_decision. Defined.

(** Objects are mutable and shared, so an interactor lives in a heap and is
    passed around by its address. *)
Abbreviation loc := positive.

Module UseCaseInteractor.

(** The attributes of an instance.  [__init__] sets only [person_repo],
    which is the receiver of the [repo_call]s; [reference] does not exist
    until [set_params] assigns it. *)
Record t : Type := Build { reference : option value }.

Abbreviation heap := (gmap loc t).

(** [UseCaseInteractor(person_repo)] *)
Definition __init__ {E} : M E heap loc :=
  h ← get_state;
  let self := fresh (dom h) in
  put_state (<[self := Build None]> h);;
  mret self.

Definition set_params {E} (self : loc) (reference : value) : M E heap loc :=
  h ← get_state;
  put_state (<[self := Build (Some reference)]> h);;
  mret self.

Definition execute (self : loc) : M repo_call heap value :=
  h ← get_state;
  match h !! self ≫= reference with
  | Some r => call (person_repo_get_person r)
  | None => raise (AttributeError "reference")
  end.

End UseCaseInteractor.

(** ** Interface adapters *)

Module PersonSerializer.

Definition serialize (person : value) : outcome dict :=
  match Person.reference person with
  | Raised e => Raised e
  | Ok r =>
      match Person.department_id person with
      | Raised e => Raised e
      | Ok d => Ok (<["reference" := r]> (<["department_id" := d]> ∅))
      end
  end.

End PersonSerializer.

Module PersonView.

Record t : Type := Build { get_person_interactor : loc }.

Definition get (self : t) (reference : value)
    : M repo_call UseCaseInteractor.heap (dict * Z) :=
  try_except_else
    (i ← UseCaseInteractor.set_params (get_person_interactor self) reference;
     UseCaseInteractor.execute i)
    (fun e =>
       match e with
       | EntityDoesNotExist =>
           Some (mret ({["error" := VStr "Person does not exist!"]}, 404))
       | _ => None
       end)
    (fun person =>
       body ← lift (PersonSerializer.serialize person);
       mret (body, 200)).

End PersonView.

Module PersonRepo.

(** The attributes [cache_repo] and [db_repo], set once by [__init__], are
    the receivers of the [store_call]s. *)
Definition get_person {S} (reference : value) : M store_call S value :=
  person ← call (cache_repo_get_person reference);
  if is_None person then
    person ← call (db_repo_get_person reference);
    call (cache_repo_save_person person);;
    mret person
  else
    mret person.

End PersonRepo.

(** ** Frameworks and drivers *)

(** The interface [PersonRepo] expects of its [cache_repo]: both methods may
    return, raise, and change the cache's own state [C]. *)
Class CacheRepo (C : Type) : Type := {
  cache_get_person : value -> C -> outcome value * C;
  cache_save_person : value -> C -> outcome value * C
}.

(** The interface [PersonRepo] expects of its [db_repo]. *)
Class DbRepo (D : Type) : Type := {
  db_get_person : value -> D -> outcome value * D
}.

(** The two stores side by side, each answering from its own state. *)
Definition stores {C D} `{CacheRepo C} `{DbRepo D} : handler store_call (C * D) :=
  fun e w =>
    match e with
    | cache_repo_get_person r =>
        let a := cache_get_person r w.1 in (a.1, (a.2, w.2))
    | db_repo_get_person r =>
        let a := db_get_person r w.2 in (a.1, (w.1, a.2))
    | cache_repo_save_person p =>
        let a := cache_save_person p w.1 in (a.1, (a.2, w.2))
    end.

Module PersonDatabaseRepo.

(** A row object handed out by the ORM. *)
Record ORMPerson : Type := Row { orm_reference : value; orm_department_id : value }.

(** [ORMPerson.objects.get(reference=...)]: a row, or an exception, which
    is [DoesNotExist] when no row matches. *)
Class Objects (D : Type) : Type := {
  objects_get : value -> D -> outcome ORMPerson * D
}.

Definition _decode_orm_person (orm_person : ORMPerson) : value :=
  Person (orm_reference orm_person) (orm_department_id orm_person).

Definition get_person {D} `{Objects D} (reference : value) (d : D)
    : outcome value * D :=
  match objects_get reference d with
  | (Ok orm_person, d') => (Ok (_decode_orm_person orm_person), d')
  | (Raised DoesNotExist, d') => (Raised EntityDoesNotExist, d')
  | (Raised e, d') => (Raised e, d')
  end.

#[global] Instance db_repo {D} `{Objects D} : DbRepo D :=
  {| db_get_person := get_person |}.

(** Modelled from the spec: the table behind [ORMPerson], which src/ does not
    define; an authoritative key-value lookup keyed by reference that fails
    with the not-found signal when the key is absent. *)
Abbreviation table := (gmap value ORMPerson).

#[global] Instance table_objects : Objects table :=
  {| objects_get reference t :=
       match t !! reference with
       | Some row => (Ok row, t)
       | None => (Raised DoesNotExist, t)
       end |}.

End PersonDatabaseRepo.

Module PersonCacheRepo.

(** Modelled from the spec: class [PersonCacheRepo], which src/ names but
    does not define; a key-value lookup/save for Person keyed by reference,
    [get_person] answering a Person or None and [save_person] nothing. *)
Abbreviation entries := (gmap value value).

Definition get_person (reference : value) (c : entries) : outcome value * entries :=
  (Ok (default VNone (c !! reference)), c).

Definition save_person (person : value) (c : entries) : outcome value * entries :=
  match Person.reference person with
  | Ok r => (Ok VNone, <[r := person]> c)
  | Raised e => (Raised e, c)
  end.

#[global] Instance cache_repo : CacheRepo entries :=
  {| cache_get_person := get_person; cache_save_person := save_person |}.

End PersonCacheRepo.

(** ** Dependency injection *)

Module PersonRepoFactory.

(** [PersonRepo(db_repo, cache_repo)] as the implementation of the
    interactor's repository calls.  A [PersonRepo] has no attribute that is
    ever reassigned, so its methods run over the empty state. *)
Definition get (e : repo_call) : prog store_call (outcome value) :=
  match e with
  | person_repo_get_person r => pbind (PersonRepo.get_person r ()) (fun a => Ret a.1)
  end.

End PersonRepoFactory.

Module PersonViewFactory.

(** A new view around a new interactor, on every call. *)
Definition create {E} : M E UseCaseInteractor.heap PersonView.t :=
  get_person_interactor ← UseCaseInteractor.__init__;
  mret (PersonView.Build get_person_interactor).

End PersonViewFactory.

Module ViewWrapper.

(** [self.view_factory.create().get(reference)] with every layer wired in;
    the encoding of the pair as an HTTP response is left out. *)
Definition get (reference : value)
    : UseCaseInteractor.heap ->
      prog store_call (outcome (dict * Z) * UseCaseInteractor.heap) :=
  fun h =>
    link PersonRepoFactory.get
      ((view ← PersonViewFactory.create; PersonView.get view reference) h).

End ViewWrapper.

(** The handler that a linked implementation induces on the calls it
    implements. *)
Definition implemented {E1 E2 W} (h : handler E2 W)
    (impl : E1 -> prog E2 (outcome value)) : handler E1 W :=
  fun e w => let r := run h (impl e) w in (returned r, world r).

(** How often the database store's [get_person] occurs in a trace. *)
Definition is_db_get_person (e : store_call) : bool :=
  match e with db_repo_get_person _ => true | _ => false end.

Definition is_cache_save_person (e : store_call) : bool :=
  match e with cache_repo_save_person _ => true | _ => false end.

Definition db_queries (tr : list store_call) : nat :=
  length (List.filter is_db_get_person tr).

Definition cache_writes (tr : list store_call) : nat :=
  length (List.filter is_cache_save_person tr).

(** A sample database and cache. *)
Definition sample_table : PersonDatabaseRepo.table :=
  {[ VStr "abc" := PersonDatabaseRepo.Row (VStr "abc") (VInt 5) ]}.

Definition sample_entries : PersonCacheRepo.entries :=
  {[ VStr "xyz" := Person (VStr "xyz") (VInt 7) ]}.

(** A repository test double that answers every call with [answer]. *)
Definition stub_repo (answer : outcome value) : handler repo_call () :=
  fun _ w => (answer, w).

(** [self.set_params(r1).set_params(r2)...set_params(reference).execute()]:
    each call is made on the instance the previous one returned. *)
Fixpoint chained (self : loc) (earlier : list value) (reference : value)
    : M repo_call UseCaseInteractor.heap value :=
  match earlier with
  | [] =>
      i ← UseCaseInteractor.set_params self reference;
      UseCaseInteractor.execute i
  | r :: rs =>
      i ← UseCaseInteractor.set_params self r;
      chained i rs reference
  end.

(** A caller that constructs an interactor, makes any sequence of method
    calls on it, going on after a call that raised, and then calls
    [execute]. *)
Inductive method_call : Type :=
| SetParams (reference : value)
| Execute.

#[global] Instance method_call_eq_dec : EqDecision method_call.
Proof. solve_decision. Defined.

Definition invoke (self : loc) (c : method_call)
    : M repo_call UseCaseInteractor.heap () :=
  match c with
  | SetParams r => UseCaseInteractor.set_params self r;; mret ()
  | Execute =>
      try_except_else (UseCaseInteractor.execute self)
        (fun _ => Some (mret ())) (fun _ => mret ())
  end.

Fixpoint invoke_all (self : loc) (calls : list method_call)
    : M repo_call UseCaseInteractor.heap () :=
  match calls with
  | [] => mret ()
  | c :: calls' => invoke self c;; invoke_all self calls'
  end.

Definition construct_then (calls : list method_call)
    : M repo_call UseCaseInteractor.heap value :=
  self ← UseCaseInteractor.__init__;
  invoke_all self calls;;
  UseCaseInteractor.execute self.

(** The bodies as the specification prints them. *)
Definition spec_body (r d : value) : dict :=
  <["reference" := r]> (<["departmentId" := d]> ∅).

(** ** The HTTP boundary *)

Module HttpResponse.

(** What [ViewWrapper.get] passes to the framework's [HttpResponse]. *)
Record t : Type := Build { content : string; status : Z; content_type : string }.

End HttpResponse.

Module Request.

(** [view.get] called with the keyword arguments [kwargs] unpacked onto its
    one parameter [reference]: a [TypeError] unless [kwargs] has that key
    and no other. *)
Definition call_get (view : PersonView.t) (kwargs : dict)
    : M repo_call UseCaseInteractor.heap (dict * Z) :=
  match kwargs !! "reference" with
  | Some reference =>
      if decide (size kwargs = 1%nat)
      then PersonView.get view reference
      else raise (OtherError "TypeError")
  | None => raise (OtherError "TypeError")
  end.

(** The body of [ViewWrapper.get] in full, from the keyword arguments of
    the route: the factory makes the view, the view is called, and the
    response is built from the pair it returns.  [json_dumps] stands for
    the library function [json.dumps], which may raise. *)
Definition respond (json_dumps : dict -> outcome string) (kwargs : dict)
    : M repo_call UseCaseInteractor.heap HttpResponse.t :=
  view ← PersonViewFactory.create;
  answer ← call_get view kwargs;
  content ← lift (json_dumps answer.1);
  mret (HttpResponse.Build content answer.2 "application/json").

(** The same with the repository of [PersonRepoFactory] wired in. *)
Definition get (json_dumps : dict -> outcome string) (kwargs : dict)
    : UseCaseInteractor.heap ->
      prog store_call (outcome HttpResponse.t * UseCaseInteractor.heap) :=
  fun h => link PersonRepoFactory.get (respond json_dumps kwargs h).

End Request.

(** Test doubles: an encoder that answers every body with the same text, a
    cache whose every call raises, a cache that misses every lookup and
    keeps the list of what it was asked to save, a dictionary cache that
    refuses to be written, and a database with one answer to every
    lookup. *)
Definition stub_json (text : string) : dict -> outcome string :=
  fun _ => Ok text.

Definition broken_cache (e : exn) : CacheRepo () :=
  {| cache_get_person _ w := (Raised e, w);
     cache_save_person _ w := (Raised e, w) |}.

Definition recording_cache : CacheRepo (list value) :=
  {| cache_get_person _ saved := (Ok VNone, saved);
     cache_save_person person saved := (Ok VNone, saved ++ [person]) |}.

Definition read_only_cache : CacheRepo PersonCacheRepo.entries :=
  {| cache_get_person := PersonCacheRepo.get_person;
     cache_save_person _ c := (Raised (OtherError "ReadOnlyError"), c) |}.

Definition stub_db (answer : outcome value) : DbRepo () :=
  {| db_get_person _ w := (answer, w) |}.

(** * Properties *)

(** ** Running and linking *)

Lemma run_pbind {E W A B} (h : handler E W) (p : prog E A) (f : A -> prog E B) (w : W) :
  run h (pbind p f) w =
  RunResult
    (returned (run h (f (returned (run h p w))) (world (run h p w))))
    (world (run h (f (returned (run h p w))) (world (run h p w))))
    (trace (run h p w) ++ trace (run h (f (returned (run h p w))) (world (run h p w)))).
Proof.
  revert w. induction p as [a|e k IH]; intros w; simpl.
  - by destruct (run h (f a) w).
  - by rewrite IH.
Qed.

Lemma run_mbind {E S W A B} (g : handler E W) (m : M E S A) (f : A -> M E S B)
    (s : S) (w : W) :
  run g ((m ≫= f) s) w =
  match returned (run g (m s) w) with
  | (Ok a, s') =>
      RunResult
        (returned (run g (f a s') (world (run g (m s) w))))
        (world (run g (f a s') (world (run g (m s) w))))
        (trace (run g (m s) w) ++ trace (run g (f a s') (world (run g (m s) w))))
  | (Raised e, s') =>
      RunResult (Raised e, s') (world (run g (m s) w)) (trace (run g (m s) w))
  end.
Proof.
  unfold mbind, M_bind. rewrite run_pbind.
  destruct (returned (run g (m s) w)) as [[a|e] s']; simpl; [done|].
  by rewrite app_nil_r.
Qed.

(** Linking changes neither what a program returns nor the state it leaves
    the collaborators in. *)
Lemma run_link {E1 E2 W A} (h : handler E2 W) (impl : E1 -> prog E2 (outcome value))
    (p : prog E1 A) (w : W) :
  returned (run h (link impl p) w) = returned (run (implemented h impl) p w)
  ∧ world (run h (link impl p) w) = world (run (implemented h impl) p w).
Proof.
  revert w. induction p as [a|e k IH]; intros w; simpl; [done|].
  rewrite run_pbind. simpl. apply IH.
Qed.

(** Expose the program tree of a method body. *)
Ltac unfold_M :=
  unfold mbind, M_bind, mret, M_ret, call, raise, lift, get_state, put_state,
    try_except_else.

Ltac tree_of f := unfold f; unfold_M; simpl.

(** ** PersonRepo: the cache-aside read *)

Section PersonRepo_get_person.

Context {C D S : Type} `{!CacheRepo C} `{!DbRepo D}.

Implicit Types (reference person : value) (c : C) (d : D) (s : S).

Lemma get_person_found_in_cache reference person c c' d s :
  cache_get_person reference c = (Ok person, c') ->
  is_None person = false ->
  run stores (PersonRepo.get_person reference s) (c, d)
  = RunResult (Ok person, s) (c', d) [cache_repo_get_person reference].
Proof.
  intros Hc Hp. tree_of @PersonRepo.get_person.
  rewrite Hc. simpl. rewrite Hp. reflexivity.
Qed.

Lemma get_person_cache_raises reference e c c' d s :
  cache_get_person reference c = (Raised e, c') ->
  run stores (PersonRepo.get_person reference s) (c, d)
  = RunResult (Raised e, s) (c', d) [cache_repo_get_person reference].
Proof.
  intros Hc. tree_of @PersonRepo.get_person. rewrite Hc. reflexivity.
Qed.

Lemma get_person_db_raises reference e c c1 d d1 s :
  cache_get_person reference c = (Ok VNone, c1) ->
  db_get_person reference d = (Raised e, d1) ->
  run stores (PersonRepo.get_person reference s) (c, d)
  = RunResult (Raised e, s) (c1, d1)
      [cache_repo_get_person reference; db_repo_get_person reference].
Proof.
  intros Hc Hd. tree_of @PersonRepo.get_person.
  rewrite Hc. simpl. rewrite Hd. reflexivity.
Qed.

Lemma get_person_db_returns reference person c c1 d d1 s :
  cache_get_person reference c = (Ok VNone, c1) ->
  db_get_person reference d = (Ok person, d1) ->
  run stores (PersonRepo.get_person reference s) (c, d)
  = RunResult
      (match (cache_save_person person c1).1 with
       | Ok _ => Ok person
       | Raised e => Raised e
       end, s)
      ((cache_save_person person c1).2, d1)
      [cache_repo_get_person reference; db_repo_get_person reference;
       cache_repo_save_person person].
Proof.
  intros Hc Hd. tree_of @PersonRepo.get_person.
  rewrite Hc. simpl. rewrite Hd. simpl.
  destruct (cache_save_person person c1) as [[v|e] c2]; reflexivity.
Qed.

(** C1. When the cache store answers [get_person] with a Person,
    [PersonRepo.get_person] returns that Person, and the only call it makes
    is the cache lookup: the database store's [get_person] is not invoked
    and the database is left as it was. *)
Theorem get_person_cache_hit reference ref0 dept0 c c' d s :
  cache_get_person reference c = (Ok (Person ref0 dept0), c') ->
  returned (run stores (PersonRepo.get_person reference s) (c, d))
    = (Ok (Person ref0 dept0), s)
  ∧ trace (run stores (PersonRepo.get_person reference s) (c, d))
    = [cache_repo_get_person reference]
  ∧ db_queries (trace (run stores (PersonRepo.get_person reference s) (c, d))) = 0%nat
  ∧ world (run stores (PersonRepo.get_person reference s) (c, d)) = (c', d).
Proof.
  intros Hc.
  rewrite (get_person_found_in_cache _ _ _ _ d s Hc eq_refl). done.
Qed.

(** C2, amended. When the cache store answers None and the database store
    answers with a Person, [PersonRepo.get_person] calls the cache store's
    [save_person] on that same Person after the database lookup and before
    returning.  If [save_person] returns, it returns the Person; if
    [save_person] raises, that exception comes out in its place.  Either
    way the cache is left in the state [save_person] put it in. *)
Theorem get_person_cache_miss reference ref0 dept0 c c1 d d1 s :
  cache_get_person reference c = (Ok VNone, c1) ->
  db_get_person reference d = (Ok (Person ref0 dept0), d1) ->
  trace (run stores (PersonRepo.get_person reference s) (c, d))
    = [cache_repo_get_person reference; db_repo_get_person reference;
       cache_repo_save_person (Person ref0 dept0)]
  ∧ returned (run stores (PersonRepo.get_person reference s) (c, d))
    = (match (cache_save_person (Person ref0 dept0) c1).1 with
       | Ok _ => Ok (Person ref0 dept0)
       | Raised e => Raised e
       end, s)
  ∧ world (run stores (PersonRepo.get_person reference s) (c, d))
    = ((cache_save_person (Person ref0 dept0) c1).2, d1).
Proof.
  intros Hc Hd.
  rewrite (get_person_db_returns _ _ _ _ _ _ s Hc Hd). done.
Qed.

(** C3. When the cache store answers None and the database store raises
    [EntityDoesNotExist], [PersonRepo.get_person] raises that exception,
    and [save_person] is not called: the cache is in the state its own
    lookup left it in. *)
Theorem get_person_not_found reference c c1 d d1 s :
  cache_get_person reference c = (Ok VNone, c1) ->
  db_get_person reference d = (Raised EntityDoesNotExist, d1) ->
  returned (run stores (PersonRepo.get_person reference s) (c, d))
    = (Raised EntityDoesNotExist, s)
  ∧ trace (run stores (PersonRepo.get_person reference s) (c, d))
    = [cache_repo_get_person reference; db_repo_get_person reference]
  ∧ cache_writes (trace (run stores (PersonRepo.get_person reference s) (c, d))) = 0%nat
  ∧ (world (run stores (PersonRepo.get_person reference s) (c, d))).1 = c1.
Proof.
  intros Hc Hd.
  rewrite (get_person_db_raises _ _ _ _ _ _ s Hc Hd). done.
Qed.

(** C4. One call of [PersonRepo.get_person] invokes the database store's
    [get_person] at most once, whatever the stores do: once when the cache
    lookup answers None, and not at all otherwise. *)
Theorem get_person_db_queries reference c d s :
  (db_queries (trace (run stores (PersonRepo.get_person reference s) (c, d))) <= 1)%nat
  ∧ db_queries (trace (run stores (PersonRepo.get_person reference s) (c, d)))
    = match (cache_get_person reference c).1 with
      | Ok VNone => 1%nat
      | _ => 0%nat
      end.
Proof.
  destruct (cache_get_person reference c) as [[person|e] c1] eqn:Hc.
  - destruct (is_None person) eqn:Hp.
    + destruct person; try discriminate.
      destruct (db_get_person reference d) as [[person|e] d1] eqn:Hd.
      * rewrite (get_person_db_returns _ _ _ _ _ _ s Hc Hd).
        unfold db_queries. simpl. split; [lia|reflexivity].
      * rewrite (get_person_db_raises _ _ _ _ _ _ s Hc Hd).
        unfold db_queries. simpl. split; [lia|reflexivity].
    + rewrite (get_person_found_in_cache _ _ _ _ d s Hc Hp).
      unfold db_queries. simpl.
      destruct person; try discriminate; split; (lia || reflexivity).
  - rewrite (get_person_cache_raises _ _ _ _ d s Hc).
    unfold db_queries. simpl. split; [lia|reflexivity].
Qed.

End PersonRepo_get_person.

Lemma get_person_cache_hit_witness :
  cache_get_person (VStr "xyz") sample_entries
    = (Ok (Person (VStr "xyz") (VInt 7)), sample_entries)
  ∧ returned (run stores (PersonRepo.get_person (VStr "xyz") ()) (sample_entries, sample_table))
    = (Ok (Person (VStr "xyz") (VInt 7)), ()).
Proof.
  split; [reflexivity|].
  apply (get_person_cache_hit (VStr "xyz") (VStr "xyz") (VInt 7)
           sample_entries sample_entries sample_table ()).
  reflexivity.
Defined.

Lemma get_person_cache_miss_witness :
  cache_get_person (VStr "abc") sample_entries = (Ok VNone, sample_entries)
  ∧ db_get_person (VStr "abc") sample_table
    = (Ok (Person (VStr "abc") (VInt 5)), sample_table)
  ∧ returned (run stores (PersonRepo.get_person (VStr "abc") ()) (sample_entries, sample_table))
    = (Ok (Person (VStr "abc") (VInt 5)), ())
  ∧ world (run stores (PersonRepo.get_person (VStr "abc") ()) (sample_entries, sample_table))
    = (<[VStr "abc" := Person (VStr "abc") (VInt 5)]> sample_entries, sample_table)
  ∧ cache_get_person (VStr "abc")
      (<[VStr "abc" := Person (VStr "abc") (VInt 5)]> sample_entries)
    = (Ok (Person (VStr "abc") (VInt 5)),
       <[VStr "abc" := Person (VStr "abc") (VInt 5)]> sample_entries).
Proof.
  split; [reflexivity|]. split; [reflexivity|].
  destruct (get_person_cache_miss (VStr "abc") (VStr "abc") (VInt 5)
              sample_entries sample_entries sample_table sample_table ())
    as (_ & Hreturned & Hworld); [reflexivity|reflexivity|].
  split; [exact Hreturned|]. split; [exact Hworld|]. reflexivity.
Defined.

(** C2 as written fails: with a cache whose [save_person] raises, the cache
    lookup answers None and the database answers a Person, yet [get_person]
    does not return that Person. *)
Lemma get_person_cache_miss_save_raises :
  cache_get_person (CacheRepo := read_only_cache) (VStr "abc") sample_entries
    = (Ok VNone, sample_entries)
  ∧ db_get_person (VStr "abc") sample_table
    = (Ok (Person (VStr "abc") (VInt 5)), sample_table)
  ∧ returned (run (stores (H := read_only_cache))
                (PersonRepo.get_person (VStr "abc") ()) (sample_entries, sample_table))
    ≠ (Ok (Person (VStr "abc") (VInt 5)), ()).
Proof.
  split; [reflexivity|]. split; [reflexivity|].
  vm_compute. discriminate.
Qed.

Lemma get_person_not_found_witness :
  cache_get_person (VStr "nobody") sample_entries = (Ok VNone, sample_entries)
  ∧ db_get_person (VStr "nobody") sample_table = (Raised EntityDoesNotExist, sample_table)
  ∧ returned (run stores (PersonRepo.get_person (VStr "nobody") ()) (sample_entries, sample_table))
    = (Raised EntityDoesNotExist, ()).
Proof.
  split; [reflexivity|]. split; [reflexivity|].
  apply (get_person_not_found (VStr "nobody") sample_entries sample_entries
           sample_table sample_table ());
    reflexivity.
Defined.

(** ** UseCaseInteractor *)

Section Interactor.

Context {W : Type} (h : handler repo_call W).

Implicit Types (self : loc) (hp : UseCaseInteractor.heap) (w : W).

Lemma set_params_run {E} (g : handler E W) self (reference : value) hp w :
  run g (UseCaseInteractor.set_params self reference hp) w
  = RunResult (Ok self, <[self := UseCaseInteractor.Build (Some reference)]> hp) w [].
Proof. reflexivity. Qed.

Lemma execute_run self hp w :
  run h (UseCaseInteractor.execute self hp) w
  = match hp !! self ≫= UseCaseInteractor.reference with
    | Some r =>
        RunResult ((h (person_repo_get_person r) w).1, hp)
          (h (person_repo_get_person r) w).2 [person_repo_get_person r]
    | None => RunResult (Raised (AttributeError "reference"), hp) w []
    end.
Proof.
  tree_of UseCaseInteractor.execute.
  destruct (hp !! self) as [[[r|]]|]; reflexivity.
Qed.

Lemma set_params_execute_run self (reference : value) hp w :
  run h ((i ← UseCaseInteractor.set_params self reference;
          UseCaseInteractor.execute i) hp) w
  = RunResult
      ((h (person_repo_get_person reference) w).1,
       <[self := UseCaseInteractor.Build (Some reference)]> hp)
      (h (person_repo_get_person reference) w).2
      [person_repo_get_person reference].
Proof.
  rewrite run_mbind, set_params_run. simpl.
  rewrite execute_run, lookup_insert_eq. reflexivity.
Qed.

Lemma chained_run self (earlier : list value) (reference : value) hp w :
  run h (chained self earlier reference hp) w
  = RunResult
      ((h (person_repo_get_person reference) w).1,
       <[self := UseCaseInteractor.Build (Some reference)]> hp)
      (h (person_repo_get_person reference) w).2
      [person_repo_get_person reference].
Proof.
  revert hp. induction earlier as [|r rs IH]; intros hp.
  - apply set_params_execute_run.
  - change (chained self (r :: rs) reference hp)
      with (chained self rs reference
              (<[self := UseCaseInteractor.Build (Some r)]> hp)).
    rewrite IH, insert_insert_eq. reflexivity.
Qed.

(** C8. [set_params] returns the instance it was called on, having made no
    repository call; and after any chain of [set_params] calls, [execute]
    makes exactly one repository call, [get_person] with the reference of
    the last [set_params], and produces whatever that call produces. *)
Theorem set_params_chain_execute self (earlier : list value) (reference : value) hp w :
  run h (UseCaseInteractor.set_params self reference hp) w
    = RunResult (Ok self, <[self := UseCaseInteractor.Build (Some reference)]> hp) w []
  ∧ trace (run h (chained self earlier reference hp) w)
    = [person_repo_get_person reference]
  ∧ (returned (run h (chained self earlier reference hp) w)).1
    = (h (person_repo_get_person reference) w).1.
Proof.
  rewrite chained_run. split; [apply set_params_run|done].
Qed.

Lemma invoke_all_unconfigured self (calls : list method_call) hp w :
  Forall (eq Execute) calls ->
  hp !! self ≫= UseCaseInteractor.reference = None ->
  run h (invoke_all self calls hp) w = RunResult (Ok (), hp) w [].
Proof.
  intros Hcalls Hself. induction Hcalls as [|c calls <- _ IH]; [reflexivity|].
  change (invoke_all self (Execute :: calls) hp)
    with ((invoke self Execute ≫= λ _, invoke_all self calls) hp).
  rewrite run_mbind.
  assert (run h (invoke self Execute hp) w = RunResult (Ok (), hp) w []) as ->.
  { unfold invoke, try_except_else. rewrite run_pbind, execute_run, Hself.
    reflexivity. }
  simpl. rewrite IH. reflexivity.
Qed.

Lemma construct_then_unconfigured (calls : list method_call) hp w :
  Forall (eq Execute) calls ->
  (returned (run h (construct_then calls hp) w)).1 = Raised (AttributeError "reference")
  ∧ trace (run h (construct_then calls hp) w) = [].
Proof.
  intros Hcalls. unfold construct_then. rewrite run_mbind.
  change (run h (UseCaseInteractor.__init__ hp) w)
    with (RunResult (E:=repo_call)
            (Ok (fresh (dom hp)), <[fresh (dom hp) := UseCaseInteractor.Build None]> hp)
            w []).
  simpl. rewrite run_mbind, invoke_all_unconfigured; [|done|by rewrite lookup_insert_eq].
  simpl. rewrite execute_run, lookup_insert_eq. done.
Qed.

(** C10. [execute] on an interactor on which [set_params] was never called,
    in particular on a freshly constructed one, raises [AttributeError] for
    the attribute [reference] and makes no repository call; hence an
    [execute] that returns was preceded by a [set_params] call. *)
Theorem execute_requires_set_params (calls : list method_call) hp w :
  (Forall (eq Execute) calls ->
     (returned (run h (construct_then calls hp) w)).1 = Raised (AttributeError "reference")
     ∧ trace (run h (construct_then calls hp) w) = [])
  ∧ (∀ v, (returned (run h (construct_then calls hp) w)).1 = Ok v ->
       ∃ r, SetParams r ∈ calls).
Proof.
  split; [apply construct_then_unconfigured|].
  intros v Hv. destruct (decide (Forall (eq Execute) calls)) as [Hall|Hex].
  - apply (construct_then_unconfigured _ hp w) in Hall as [Hraised _]. congruence.
  - apply not_Forall_Exists, Exists_exists in Hex as ([r|] & Hin & Hne); [|done|].
    + by exists r.
    + apply _.
Qed.

End Interactor.

Lemma execute_requires_set_params_witness :
  Forall (eq Execute) []
  ∧ (returned (run (stub_repo (Ok VNone)) (construct_then [] ∅) ())).1
    = Raised (AttributeError "reference").
Proof.
  split; [constructor|].
  apply (execute_requires_set_params (stub_repo (Ok VNone)) [] ∅ ()).
  constructor.
Defined.

(** ** PersonSerializer *)

(** C7 as written, with the key [departmentId], fails: the dict that
    [serialize] builds has no such key. *)
Lemma serialize_departmentId_key :
  PersonSerializer.serialize (Person (VStr "abc") (VInt 5))
  ≠ Ok (spec_body (VStr "abc") (VInt 5)).
Proof.
  intros Heq.
  apply (f_equal (λ o, match o with Ok body => body !! "departmentId" | Raised _ => None end))
    in Heq.
  vm_compute in Heq. discriminate.
Qed.

(** C7, amended. For every pair [(r, d)], with no condition on either,
    [serialize (Person r d)] is the dict with exactly the two keys
    [reference], bound to [r], and [department_id], bound to [d]. *)
Theorem serialize_person (r d : value) :
  PersonSerializer.serialize (Person r d)
    = Ok (<["reference" := r]> (<["department_id" := d]> ∅))
  ∧ ∀ key : string,
      (<["reference" := r]> (<["department_id" := d]> ∅) : dict) !! key
      = if decide (key = "reference") then Some r
        else if decide (key = "department_id") then Some d
        else None.
Proof.
  split; [reflexivity|]. intros key.
  repeat case_decide; simplify_map_eq; done.
Qed.

(** ** PersonView *)

Section View.

Context {W : Type} (h : handler repo_call W).

Implicit Types (view : PersonView.t) (reference : value)
  (hp : UseCaseInteractor.heap) (w : W).

Lemma view_get_run view reference hp w :
  run h (PersonView.get view reference hp) w
  = RunResult
      (match (h (person_repo_get_person reference) w).1 with
       | Ok person =>
           match PersonSerializer.serialize person with
           | Ok body => Ok (body, 200)
           | Raised e => Raised e
           end
       | Raised EntityDoesNotExist =>
           Ok ({["error" := VStr "Person does not exist!"]}, 404)
       | Raised e => Raised e
       end,
       <[PersonView.get_person_interactor view
           := UseCaseInteractor.Build (Some reference)]> hp)
      (h (person_repo_get_person reference) w).2
      [person_repo_get_person reference].
Proof.
  unfold PersonView.get, try_except_else.
  rewrite run_pbind, set_params_execute_run. simpl.
  destruct (h (person_repo_get_person reference) w).1 as [person|[]]; try reflexivity.
  unfold_M. simpl. destruct (PersonSerializer.serialize person); reflexivity.
Qed.

(** C5. When the repository call raises [EntityDoesNotExist],
    [PersonView.get] returns the pair of the body
    [{'error': 'Person does not exist!'}] and the status 404. *)
Theorem view_get_not_found view reference hp w w' :
  h (person_repo_get_person reference) w = (Raised EntityDoesNotExist, w') ->
  (returned (run h (PersonView.get view reference hp) w)).1
  = Ok ({["error" := VStr "Person does not exist!"]}, 404).
Proof.
  intros Hrepo. rewrite view_get_run, Hrepo. reflexivity.
Qed.

(** C6, amended. When the repository call returns a Person,
    [PersonView.get] returns status 200 with the serialized Person as body,
    which binds [reference] and [department_id]. *)
Theorem view_get_found view reference r d hp w w' :
  h (person_repo_get_person reference) w = (Ok (Person r d), w') ->
  (returned (run h (PersonView.get view reference hp) w)).1
    = Ok (<["reference" := r]> (<["department_id" := d]> ∅), 200)
  ∧ PersonSerializer.serialize (Person r d)
    = Ok (<["reference" := r]> (<["department_id" := d]> ∅)).
Proof.
  intros Hrepo. rewrite view_get_run, Hrepo. split; reflexivity.
Qed.

(** C9. Any exception other than [EntityDoesNotExist] that the interactor
    raises, and any exception that the serializer raises, comes out of
    [PersonView.get] as it is. *)
Theorem view_get_propagates view reference hp w e :
  e ≠ EntityDoesNotExist ->
  (h (person_repo_get_person reference) w).1 = Raised e
  ∨ (∃ person, (h (person_repo_get_person reference) w).1 = Ok person
               ∧ PersonSerializer.serialize person = Raised e) ->
  (returned (run h (PersonView.get view reference hp) w)).1 = Raised e.
Proof.
  intros Hne [Hrepo|(person & Hrepo & Hser)]; rewrite view_get_run, Hrepo; simpl.
  - by destruct e.
  - by rewrite Hser.
Qed.

End View.

Lemma view_get_not_found_witness :
  stub_repo (Raised EntityDoesNotExist) (person_repo_get_person (VStr "missing")) ()
    = (Raised EntityDoesNotExist, ())
  ∧ (returned (run (stub_repo (Raised EntityDoesNotExist))
                 (PersonView.get (PersonView.Build 1%positive) (VStr "missing") ∅) ())).1
    = Ok ({["error" := VStr "Person does not exist!"]}, 404).
Proof.
  split; [reflexivity|].
  apply (view_get_not_found (stub_repo (Raised EntityDoesNotExist))
           (PersonView.Build 1%positive) (VStr "missing") ∅ () ()).
  reflexivity.
Defined.

(** C6 as written, with the key [departmentId], fails at its own example. *)
Lemma view_get_abc_departmentId_key :
  (returned (run (stub_repo (Ok (Person (VStr "abc") (VInt 5))))
               (PersonView.get (PersonView.Build 1%positive) (VStr "abc") ∅) ())).1
  ≠ Ok (spec_body (VStr "abc") (VInt 5), 200).
Proof.
  intros Heq.
  apply (f_equal (λ o, match o with
                       | Ok (body, _) => body !! "departmentId"
                       | Raised _ => None
                       end)) in Heq.
  vm_compute in Heq. discriminate.
Qed.

Lemma view_get_found_witness :
  stub_repo (Ok (Person (VStr "abc") (VInt 5))) (person_repo_get_person (VStr "abc")) ()
    = (Ok (Person (VStr "abc") (VInt 5)), ())
  ∧ (returned (run (stub_repo (Ok (Person (VStr "abc") (VInt 5))))
                 (PersonView.get (PersonView.Build 1%positive) (VStr "abc") ∅) ())).1
    = Ok (<["reference" := VStr "abc"]> (<["department_id" := VInt 5]> ∅), 200).
Proof.
  split; [reflexivity|].
  refine (proj1 (view_get_found (stub_repo (Ok (Person (VStr "abc") (VInt 5))))
           (PersonView.Build 1%positive) (VStr "abc") (VStr "abc") (VInt 5) ∅ () () _)).
  reflexivity.
Defined.

Lemma view_get_propagates_witness :
  OtherError "ConnectionError" ≠ EntityDoesNotExist
  ∧ (returned (run (stub_repo (Raised (OtherError "ConnectionError")))
                 (PersonView.get (PersonView.Build 1%positive) (VStr "abc") ∅) ())).1
    = Raised (OtherError "ConnectionError").
Proof.
  split; [discriminate|].
  apply (view_get_propagates (stub_repo (Raised (OtherError "ConnectionError")))
           (PersonView.Build 1%positive) (VStr "abc") ∅ ()).
  - discriminate.
  - left. reflexivity.
Defined.

(** ** The wired endpoint *)

Lemma database_repo_absent (t : PersonDatabaseRepo.table) (reference : value) :
  t !! reference = None ->
  db_get_person reference t = (Raised EntityDoesNotExist, t).
Proof.
  intros Ht. unfold db_get_person, PersonDatabaseRepo.db_repo,
    PersonDatabaseRepo.get_person. simpl. by rewrite Ht.
Qed.

Lemma database_repo_present (t : PersonDatabaseRepo.table) (reference : value) row :
  t !! reference = Some row ->
  db_get_person reference t
  = (Ok (Person (PersonDatabaseRepo.orm_reference row)
           (PersonDatabaseRepo.orm_department_id row)), t).
Proof.
  intros Ht. unfold db_get_person, PersonDatabaseRepo.db_repo,
    PersonDatabaseRepo.get_person. simpl. by rewrite Ht.
Qed.

Lemma implemented_repo {C D} `{!CacheRepo C} `{!DbRepo D} (reference : value) (w : C * D) :
  implemented stores PersonRepoFactory.get (person_repo_get_person reference) w
  = ((returned (run stores (PersonRepo.get_person reference ()) w)).1,
     world (run stores (PersonRepo.get_person reference ()) w)).
Proof.
  unfold implemented, PersonRepoFactory.get. by rewrite run_pbind.
Qed.

(** With the dictionary cache, a miss that the database answers with the
    Person of that reference warms the cache: the Person is then in the
    cache, and reading the reference again stops at the cache. *)
Lemma second_read_hits_cache {D} `{!DbRepo D} (reference dept : value)
    (c : PersonCacheRepo.entries) (d d1 : D) :
  c !! reference = None ->
  db_get_person reference d = (Ok (Person reference dept), d1) ->
  (world (run stores (PersonRepo.get_person reference ()) (c, d))).1 !! reference
    = Some (Person reference dept)
  ∧ trace (run stores (PersonRepo.get_person reference ())
             (world (run stores (PersonRepo.get_person reference ()) (c, d))))
    = [cache_repo_get_person reference].
Proof.
  intros Hc Hd.
  assert (cache_get_person reference c = (Ok VNone, c)) as Hmiss.
  { unfold cache_get_person, PersonCacheRepo.cache_repo, PersonCacheRepo.get_person.
    by rewrite Hc. }
  rewrite (get_person_db_returns _ _ _ _ _ _ () Hmiss Hd).
  change (cache_save_person (Person reference dept) c).2
    with (<[reference := Person reference dept]> c).
  cbn [world fst].
  split; [apply lookup_insert_eq|].
  rewrite (get_person_found_in_cache reference (Person reference dept)
             (<[reference := Person reference dept]> c)
             (<[reference := Person reference dept]> c) d1 ());
    [reflexivity| |reflexivity].
  unfold cache_get_person, PersonCacheRepo.cache_repo, PersonCacheRepo.get_person.
  by rewrite lookup_insert_eq.
Qed.

(** A reference that neither store knows is answered with 404, and the
    cache is not written. *)
Lemma request_unknown (reference : value) (c : PersonCacheRepo.entries)
    (t : PersonDatabaseRepo.table) (hp : UseCaseInteractor.heap) :
  c !! reference = None ->
  t !! reference = None ->
  (returned (run stores (ViewWrapper.get reference hp) (c, t))).1
    = Ok ({["error" := VStr "Person does not exist!"]}, 404)
  ∧ world (run stores (ViewWrapper.get reference hp) (c, t)) = (c, t).
Proof.
  intros Hc Ht. unfold ViewWrapper.get.
  destruct (run_link stores PersonRepoFactory.get
              ((view ← PersonViewFactory.create; PersonView.get view reference) hp)
              (c, t)) as [-> ->].
  change ((view ← PersonViewFactory.create; PersonView.get view reference) hp)
    with (PersonView.get (PersonView.Build (fresh (dom hp))) reference
            (<[fresh (dom hp) := UseCaseInteractor.Build None]> hp)).
  rewrite view_get_run, implemented_repo.
  rewrite (get_person_db_raises reference EntityDoesNotExist c c t t ());
    [done| |by apply database_repo_absent].
  unfold cache_get_person, PersonCacheRepo.cache_repo, PersonCacheRepo.get_person.
  by rewrite Hc.
Qed.

Example request_abc :
  (returned (run stores (ViewWrapper.get (VStr "abc") ∅) (sample_entries, sample_table))).1
    = Ok (<["reference" := VStr "abc"]> (<["department_id" := VInt 5]> ∅), 200)
  ∧ trace (run stores (ViewWrapper.get (VStr "abc") ∅) (sample_entries, sample_table))
    = [cache_repo_get_person (VStr "abc"); db_repo_get_person (VStr "abc");
       cache_repo_save_person (Person (VStr "abc") (VInt 5))].
Proof. split; vm_compute; reflexivity. Qed.

Example request_abc_again :
  let warmed := world (run stores (ViewWrapper.get (VStr "abc") ∅)
                         (sample_entries, sample_table)) in
  trace (run stores (ViewWrapper.get (VStr "abc") ∅) warmed)
  = [cache_repo_get_person (VStr "abc")].
Proof. vm_compute. reflexivity. Qed.

(** * Further properties *)

(** ** PersonRepo: every run of the read *)

Section PersonRepo_runs.

Context {C D S : Type} `{!CacheRepo C} `{!DbRepo D}.

Implicit Types (reference person : value) (c : C) (d : D) (s : S).

(** The run in full, by what the two stores answer. *)
Lemma get_person_run reference c d s :
  run stores (PersonRepo.get_person reference s) (c, d)
  = match (cache_get_person reference c).1 with
    | Raised e =>
        RunResult (Raised e, s) ((cache_get_person reference c).2, d)
          [cache_repo_get_person reference]
    | Ok VNone =>
        match (db_get_person reference d).1 with
        | Raised e =>
            RunResult (Raised e, s)
              ((cache_get_person reference c).2, (db_get_person reference d).2)
              [cache_repo_get_person reference; db_repo_get_person reference]
        | Ok person =>
            RunResult
              (match (cache_save_person person (cache_get_person reference c).2).1 with
               | Ok _ => Ok person
               | Raised e => Raised e
               end, s)
              ((cache_save_person person (cache_get_person reference c).2).2,
               (db_get_person reference d).2)
              [cache_repo_get_person reference; db_repo_get_person reference;
               cache_repo_save_person person]
        end
    | Ok person =>
        RunResult (Ok person, s) ((cache_get_person reference c).2, d)
          [cache_repo_get_person reference]
    end.
Proof.
  destruct (cache_get_person reference c) as [[person|e] c1] eqn:Hc; cbn [fst snd].
  - destruct (is_None person) eqn:Hp.
    + destruct person; try discriminate.
      destruct (db_get_person reference d) as [[person|e] d1] eqn:Hd; cbn [fst snd].
      * apply (get_person_db_returns _ _ _ _ _ _ s Hc Hd).
      * apply (get_person_db_raises _ _ _ _ _ _ s Hc Hd).
    + rewrite (get_person_found_in_cache _ _ _ _ d s Hc Hp).
      by destruct person.
  - apply (get_person_cache_raises _ _ _ _ d s Hc).
Qed.

(** X1. The calls of one read are, in this order, the cache lookup, then
    possibly the database lookup, then possibly one [save_person]; both
    lookups carry the caller's reference, and what is saved is what the
    database lookup returned. *)
Theorem get_person_call_order reference c d s :
  trace (run stores (PersonRepo.get_person reference s) (c, d))
    = [cache_repo_get_person reference]
  ∨ trace (run stores (PersonRepo.get_person reference s) (c, d))
    = [cache_repo_get_person reference; db_repo_get_person reference]
  ∨ ∃ person,
      (db_get_person reference d).1 = Ok person
      ∧ trace (run stores (PersonRepo.get_person reference s) (c, d))
        = [cache_repo_get_person reference; db_repo_get_person reference;
           cache_repo_save_person person].
Proof.
  rewrite get_person_run.
  destruct (cache_get_person reference c).1 as [[]|]; auto.
  destruct (db_get_person reference d).1 as [person|]; eauto.
Qed.

(** X2. One read calls [save_person] at most once: once when the cache
    lookup answers None and the database lookup returns, never otherwise. *)
Theorem get_person_cache_writes reference c d s :
  (cache_writes (trace (run stores (PersonRepo.get_person reference s) (c, d))) <= 1)%nat
  ∧ cache_writes (trace (run stores (PersonRepo.get_person reference s) (c, d)))
    = match (cache_get_person reference c).1, (db_get_person reference d).1 with
      | Ok VNone, Ok _ => 1%nat
      | _, _ => 0%nat
      end.
Proof.
  rewrite get_person_run. unfold cache_writes.
  destruct (cache_get_person reference c).1 as [[]|];
    destruct (db_get_person reference d).1; simpl; auto.
Qed.

(** X3. An exception raised by the cache lookup is not taken for a miss: it
    comes out of [get_person], and neither the database nor [save_person] is
    called. *)
Theorem get_person_cache_failure reference e c c' d s :
  cache_get_person reference c = (Raised e, c') ->
  run stores (PersonRepo.get_person reference s) (c, d)
  = RunResult (Raised e, s) (c', d) [cache_repo_get_person reference].
Proof.
  intros Hc. rewrite get_person_run, Hc. reflexivity.
Qed.

(** X4. Only None is a miss: any other cached value, a Person or not and
    falsy or not, is returned with no further call. *)
Theorem get_person_hit_unless_None reference person c c' d s :
  cache_get_person reference c = (Ok person, c') ->
  person ≠ VNone ->
  run stores (PersonRepo.get_person reference s) (c, d)
  = RunResult (Ok person, s) (c', d) [cache_repo_get_person reference].
Proof.
  intros Hc Hp. rewrite get_person_run, Hc. by destruct person.
Qed.

(** X5. When [save_person] raises, the exception comes out of
    [get_person] in place of the value that the database returned. *)
Theorem get_person_save_failure reference person e c c1 c2 d d1 s :
  cache_get_person reference c = (Ok VNone, c1) ->
  db_get_person reference d = (Ok person, d1) ->
  cache_save_person person c1 = (Raised e, c2) ->
  run stores (PersonRepo.get_person reference s) (c, d)
  = RunResult (Raised e, s) (c2, d1)
      [cache_repo_get_person reference; db_repo_get_person reference;
       cache_repo_save_person person].
Proof.
  intros Hc Hd Hs. rewrite get_person_run, Hc. simpl. rewrite Hd. simpl.
  rewrite Hs. reflexivity.
Qed.

(** X6. On a miss, whatever the database lookup returned, None included,
    is passed to [save_person] unexamined; it is what [get_person] returns
    if [save_person] returns, and otherwise the exception of [save_person]
    comes out. *)
Theorem get_person_saves_db_answer reference person c c1 d d1 s :
  cache_get_person reference c = (Ok VNone, c1) ->
  db_get_person reference d = (Ok person, d1) ->
  trace (run stores (PersonRepo.get_person reference s) (c, d))
    = [cache_repo_get_person reference; db_repo_get_person reference;
       cache_repo_save_person person]
  ∧ (returned (run stores (PersonRepo.get_person reference s) (c, d))).1
    = match (cache_save_person person c1).1 with
      | Ok _ => Ok person
      | Raised e => Raised e
      end.
Proof.
  intros Hc Hd. rewrite get_person_run, Hc. cbn [fst snd]. rewrite Hd. done.
Qed.

(** X7. Reading twice.  When a read missed, the database answered a value
    other than None, [save_person] returned, and the cache then gives back
    what was saved, the second read returns that same value and calls only
    the cache. *)
Theorem get_person_twice reference person ret c c1 c2 c3 d d1 s :
  cache_get_person reference c = (Ok VNone, c1) ->
  db_get_person reference d = (Ok person, d1) ->
  cache_save_person person c1 = (Ok ret, c2) ->
  cache_get_person reference c2 = (Ok person, c3) ->
  person ≠ VNone ->
  run stores (PersonRepo.get_person reference s)
    (world (run stores (PersonRepo.get_person reference s) (c, d)))
  = RunResult (Ok person, s) (c3, d1) [cache_repo_get_person reference].
Proof.
  intros Hc Hd Hs Hc2 Hp.
  rewrite (get_person_run reference c d), Hc. cbn [fst snd].
  rewrite Hd. cbn [fst snd]. rewrite Hs. cbn [fst snd world].
  rewrite get_person_run, Hc2. by destruct person.
Qed.

End PersonRepo_runs.

Lemma get_person_cache_failure_witness :
  cache_get_person (CacheRepo := broken_cache (OtherError "ConnectionError")) (VStr "abc") ()
    = (Raised (OtherError "ConnectionError"), ())
  ∧ run (stores (H := broken_cache (OtherError "ConnectionError")))
      (PersonRepo.get_person (VStr "abc") ()) ((), sample_table)
    = RunResult (Raised (OtherError "ConnectionError"), ()) ((), sample_table)
        [cache_repo_get_person (VStr "abc")].
Proof.
  split; [reflexivity|].
  apply (get_person_cache_failure (CacheRepo0 := broken_cache (OtherError "ConnectionError"))
           (VStr "abc") (OtherError "ConnectionError") () () sample_table ()).
  reflexivity.
Defined.

Lemma get_person_hit_unless_None_witness :
  cache_get_person (VStr "zero") ({[VStr "zero" := VInt 0]} : PersonCacheRepo.entries)
    = (Ok (VInt 0), {[VStr "zero" := VInt 0]})
  ∧ VInt 0 ≠ VNone
  ∧ run stores (PersonRepo.get_person (VStr "zero") ())
      ({[VStr "zero" := VInt 0]} : PersonCacheRepo.entries, sample_table)
    = RunResult (Ok (VInt 0), ()) ({[VStr "zero" := VInt 0]}, sample_table)
        [cache_repo_get_person (VStr "zero")].
Proof.
  split; [reflexivity|]. split; [discriminate|].
  apply (get_person_hit_unless_None (VStr "zero") (VInt 0)
           ({[VStr "zero" := VInt 0]} : PersonCacheRepo.entries)
           {[VStr "zero" := VInt 0]} sample_table ());
    [reflexivity|discriminate].
Defined.

Lemma get_person_save_failure_witness :
  cache_get_person (CacheRepo := read_only_cache) (VStr "abc") sample_entries
    = (Ok VNone, sample_entries)
  ∧ db_get_person (VStr "abc") sample_table
    = (Ok (Person (VStr "abc") (VInt 5)), sample_table)
  ∧ cache_save_person (CacheRepo := read_only_cache)
      (Person (VStr "abc") (VInt 5)) sample_entries
    = (Raised (OtherError "ReadOnlyError"), sample_entries)
  ∧ returned (run (stores (H := read_only_cache))
                (PersonRepo.get_person (VStr "abc") ()) (sample_entries, sample_table))
    = (Raised (OtherError "ReadOnlyError"), ()).
Proof.
  split; [reflexivity|]. split; [reflexivity|]. split; [reflexivity|].
  rewrite (get_person_save_failure (CacheRepo0 := read_only_cache)
             (VStr "abc") (Person (VStr "abc") (VInt 5)) (OtherError "ReadOnlyError")
             sample_entries sample_entries sample_entries sample_table sample_table ());
    reflexivity.
Defined.

Lemma get_person_saves_db_answer_witness :
  cache_get_person (CacheRepo := recording_cache) (VStr "abc") [] = (Ok VNone, [])
  ∧ db_get_person (DbRepo := stub_db (Ok VNone)) (VStr "abc") () = (Ok VNone, ())
  ∧ trace (run (stores (H := recording_cache) (H0 := stub_db (Ok VNone)))
             (PersonRepo.get_person (VStr "abc") ()) ([], ()))
    = [cache_repo_get_person (VStr "abc"); db_repo_get_person (VStr "abc");
       cache_repo_save_person VNone]
  ∧ (returned (run (stores (H := recording_cache) (H0 := stub_db (Ok VNone)))
                 (PersonRepo.get_person (VStr "abc") ()) ([], ()))).1
    = Ok VNone.
Proof.
  split; [reflexivity|]. split; [reflexivity|].
  refine (get_person_saves_db_answer (CacheRepo0 := recording_cache)
            (DbRepo0 := stub_db (Ok VNone))
            (VStr "abc") VNone [] [] () () () _ _);
    reflexivity.
Defined.

Lemma get_person_twice_witness :
  cache_get_person (VStr "abc") sample_entries = (Ok VNone, sample_entries)
  ∧ Person (VStr "abc") (VInt 5) ≠ VNone
  ∧ trace (run stores (PersonRepo.get_person (VStr "abc") ())
             (world (run stores (PersonRepo.get_person (VStr "abc") ())
                       (sample_entries, sample_table))))
    = [cache_repo_get_person (VStr "abc")].
Proof.
  split; [reflexivity|]. split; [discriminate|].
  rewrite (get_person_twice (VStr "abc") (Person (VStr "abc") (VInt 5)) VNone
             sample_entries sample_entries
             (<[VStr "abc" := Person (VStr "abc") (VInt 5)]> sample_entries)
             (<[VStr "abc" := Person (VStr "abc") (VInt 5)]> sample_entries)
             sample_table sample_table ());
    (reflexivity || discriminate).
Defined.

(** ** PersonDatabaseRepo *)

Section Database.

Context {D : Type} `{!PersonDatabaseRepo.Objects D}.

Implicit Types (reference : value) (d : D).

(** X8. [PersonDatabaseRepo.get_person] raises exactly what the ORM lookup
    raises, except that the ORM's [DoesNotExist] comes out as
    [EntityDoesNotExist]; so it never raises [DoesNotExist], and it leaves
    the database as the ORM lookup left it. *)
Theorem database_repo_raises reference d e :
  ((PersonDatabaseRepo.get_person reference d).1 = Raised e
   ↔ ((PersonDatabaseRepo.objects_get reference d).1 = Raised e ∧ e ≠ DoesNotExist)
     ∨ ((PersonDatabaseRepo.objects_get reference d).1 = Raised DoesNotExist
        ∧ e = EntityDoesNotExist))
  ∧ (PersonDatabaseRepo.get_person reference d).2
    = (PersonDatabaseRepo.objects_get reference d).2.
Proof.
  unfold PersonDatabaseRepo.get_person.
  destruct (PersonDatabaseRepo.objects_get reference d) as [[row|e'] d']; simpl.
  - split; [|done]. split; [done|]. by intros [[? _]|[? _]].
  - destruct e'; simpl; (split; [|done]); split;
      try (intros [= <-]; by auto);
      try (by intros [[[= <-] ?]|[[=] ?]]).
    intros [[[= <-] ?]|[_ ->]]; done.
Qed.

(** X9. A row that the ORM lookup returns comes out as a Person whose two
    properties read back the row's two fields. *)
Theorem database_repo_decodes reference d d' row :
  PersonDatabaseRepo.objects_get reference d = (Ok row, d') ->
  ∃ person,
    PersonDatabaseRepo.get_person reference d = (Ok person, d')
    ∧ Person.reference person = Ok (PersonDatabaseRepo.orm_reference row)
    ∧ Person.department_id person = Ok (PersonDatabaseRepo.orm_department_id row).
Proof.
  intros Hrow. eexists. unfold PersonDatabaseRepo.get_person. rewrite Hrow.
  split; [reflexivity|]. split; reflexivity.
Qed.

End Database.

Lemma database_repo_decodes_witness :
  PersonDatabaseRepo.objects_get (VStr "abc") sample_table
    = (Ok (PersonDatabaseRepo.Row (VStr "abc") (VInt 5)), sample_table)
  ∧ ∃ person,
      PersonDatabaseRepo.get_person (VStr "abc") sample_table = (Ok person, sample_table)
      ∧ Person.reference person = Ok (VStr "abc")
      ∧ Person.department_id person = Ok (VInt 5).
Proof.
  split; [reflexivity|].
  apply (database_repo_decodes (VStr "abc") sample_table sample_table
           (PersonDatabaseRepo.Row (VStr "abc") (VInt 5))).
  reflexivity.
Defined.

(** ** UseCaseInteractor: what the methods leave alone *)

Section Interactor_objects.

Context {W : Type} (h : handler repo_call W).

Implicit Types (self l : loc) (hp : UseCaseInteractor.heap) (w : W).

(** X10. A new interactor is at an address that no interactor had, it has
    no [reference] attribute, every interactor that existed is as it was,
    and constructing it calls nothing. *)
Theorem init_allocates hp w :
  ∃ self hp',
    run h (UseCaseInteractor.__init__ hp) w = RunResult (Ok self, hp') w []
    ∧ hp !! self = None
    ∧ hp' !! self = Some (UseCaseInteractor.Build None)
    ∧ hp ⊆ hp'.
Proof.
  exists (fresh (dom hp)), (<[fresh (dom hp) := UseCaseInteractor.Build None]> hp).
  assert (hp !! fresh (dom hp) = None) as Hfresh
    by apply not_elem_of_dom, is_fresh.
  split; [reflexivity|]. split; [done|]. split; [apply lookup_insert_eq|].
  by apply insert_subseteq.
Qed.

(** X11. [set_params] changes no interactor but the one it is called on,
    and [execute] changes none at all, whatever the repository does. *)
Theorem interactor_methods_frame self (reference : value) hp w :
  (returned (run h (UseCaseInteractor.execute self hp) w)).2 = hp
  ∧ ∀ l, l ≠ self ->
      (returned (run h (UseCaseInteractor.set_params self reference hp) w)).2 !! l
      = hp !! l.
Proof.
  split.
  - rewrite execute_run.
    by destruct (hp !! self ≫= UseCaseInteractor.reference).
  - intros l Hl. rewrite set_params_run. simpl. by rewrite lookup_insert_ne.
Qed.

(** X12. The interactor keeps its parameter and remembers no result: a
    second [execute] calls the repository again with the same reference,
    and produces what that second call produces. *)
Theorem execute_again self (r v : value) hp w w1 :
  hp !! self = Some (UseCaseInteractor.Build (Some r)) ->
  h (person_repo_get_person r) w = (Ok v, w1) ->
  run h ((UseCaseInteractor.execute self;; UseCaseInteractor.execute self) hp) w
  = RunResult ((h (person_repo_get_person r) w1).1, hp)
      (h (person_repo_get_person r) w1).2
      [person_repo_get_person r; person_repo_get_person r].
Proof.
  intros Hself Hrepo.
  rewrite run_mbind, !execute_run, Hself. cbn [mbind option_bind].
  cbn [UseCaseInteractor.reference returned world trace]. rewrite Hrepo.
  cbn [fst snd]. rewrite execute_run, Hself. reflexivity.
Qed.

End Interactor_objects.

Lemma execute_again_witness :
  ({[1%positive := UseCaseInteractor.Build (Some (VStr "abc"))]} : UseCaseInteractor.heap)
    !! 1%positive = Some (UseCaseInteractor.Build (Some (VStr "abc")))
  ∧ trace (run (stub_repo (Ok (Person (VStr "abc") (VInt 5))))
             ((UseCaseInteractor.execute 1%positive;; UseCaseInteractor.execute 1%positive)
                {[1%positive := UseCaseInteractor.Build (Some (VStr "abc"))]}) ())
    = [person_repo_get_person (VStr "abc"); person_repo_get_person (VStr "abc")].
Proof.
  split; [reflexivity|].
  rewrite (execute_again (stub_repo (Ok (Person (VStr "abc") (VInt 5)))) 1%positive
             (VStr "abc") (Person (VStr "abc") (VInt 5))
             {[1%positive := UseCaseInteractor.Build (Some (VStr "abc"))]} () ());
    reflexivity.
Defined.

(** ** PersonSerializer: beyond Persons *)

(** X13. On None, on an integer and on a string, none of which has the
    attribute, [serialize] raises [AttributeError] for [reference], the
    first of the two properties it reads. *)
Theorem serialize_attribute_error (v : value) :
  v = VNone ∨ (∃ n, v = VInt n) ∨ (∃ text, v = VStr text) ->
  PersonSerializer.serialize v = Raised (AttributeError "reference").
Proof.
  by intros [->|[[n ->]|[text ->]]].
Qed.

Lemma serialize_Person (r d : value) :
  PersonSerializer.serialize (Person r d)
  = Ok (<["reference" := r]> (<["department_id" := d]> ∅)).
Proof. reflexivity. Qed.

(** X14. [serialize] loses nothing: Persons with equal serializations have
    equal references and equal department ids. *)
Theorem serialize_injective (r d r' d' : value) :
  PersonSerializer.serialize (Person r d) = PersonSerializer.serialize (Person r' d') ->
  r = r' ∧ d = d'.
Proof.
  rewrite !serialize_Person. intros Heq.
  assert ((<["reference" := r]> (<["department_id" := d]> ∅) : dict)
          = <["reference" := r']> (<["department_id" := d']> ∅)) as Hbody
    by congruence.
  split.
  - apply (f_equal (λ body : dict, body !! "reference")) in Hbody.
    rewrite !lookup_insert_eq in Hbody. congruence.
  - apply (f_equal (λ body : dict, body !! "department_id")) in Hbody.
    rewrite !(lookup_insert_ne _ "reference" "department_id"),
      !lookup_insert_eq in Hbody by done.
    congruence.
Qed.

Lemma serialize_attribute_error_witness :
  (VNone = VNone ∨ (∃ n, VNone = VInt n) ∨ (∃ text, VNone = VStr text))
  ∧ PersonSerializer.serialize VNone = Raised (AttributeError "reference").
Proof.
  split; [by left|].
  apply (serialize_attribute_error VNone). by left.
Defined.

Lemma serialize_injective_witness :
  PersonSerializer.serialize (Person (VStr "abc") (VInt 5))
    = PersonSerializer.serialize (Person (VStr "abc") (VInt 5))
  ∧ VStr "abc" = VStr "abc" ∧ VInt 5 = VInt 5.
Proof.
  split; [reflexivity|].
  apply (serialize_injective (VStr "abc") (VInt 5) (VStr "abc") (VInt 5)).
  reflexivity.
Defined.

(** ** PersonView: every run of the view *)

Section View_runs.

Context {W : Type} (h : handler repo_call W).

Implicit Types (view : PersonView.t) (reference : value)
  (hp : UseCaseInteractor.heap) (w : W).

(** X15. Whatever the repository does, one [PersonView.get] calls it exactly
    once, with the reference it was given; afterwards the view's
    interactor holds that reference and every other interactor is as it
    was. *)
Theorem view_get_repo_call view reference hp w :
  trace (run h (PersonView.get view reference hp) w)
    = [person_repo_get_person reference]
  ∧ (returned (run h (PersonView.get view reference hp) w)).2
      !! PersonView.get_person_interactor view
    = Some (UseCaseInteractor.Build (Some reference))
  ∧ ∀ l, l ≠ PersonView.get_person_interactor view ->
      (returned (run h (PersonView.get view reference hp) w)).2 !! l = hp !! l.
Proof.
  rewrite view_get_run. cbn [trace returned snd].
  split; [done|]. split; [apply lookup_insert_eq|].
  intros l Hl. by rewrite lookup_insert_ne.
Qed.

(** X16. The only pairs [PersonView.get] returns are the error body with
    404, which it returns only when the repository raised
    [EntityDoesNotExist], and a body with 200, which it returns only when
    the repository returned an object and the body is what [serialize]
    makes of that object. *)
Theorem view_get_status view reference hp w body status :
  (returned (run h (PersonView.get view reference hp) w)).1 = Ok (body, status) ->
  (status = 404
   ∧ body = {["error" := VStr "Person does not exist!"]}
   ∧ (h (person_repo_get_person reference) w).1 = Raised EntityDoesNotExist)
  ∨ (status = 200
     ∧ ∃ person, (h (person_repo_get_person reference) w).1 = Ok person
                 ∧ PersonSerializer.serialize person = Ok body).
Proof.
  rewrite view_get_run. cbn [returned fst].
  destruct (h (person_repo_get_person reference) w).1 as [person|e].
  - destruct (PersonSerializer.serialize person) as [body'|e] eqn:Hser;
      [|discriminate].
    intros [= <- <-]. right. eauto.
  - destruct e; try discriminate. intros [= <- <-]. by left.
Qed.

(** X17. A repository that returns None, an integer or a string does not
    get a 404: [PersonView.get] raises the [AttributeError] for
    [reference] that [serialize] raises on such an object. *)
Theorem view_get_non_person view reference hp w (v : value) :
  (h (person_repo_get_person reference) w).1 = Ok v ->
  v = VNone ∨ (∃ n, v = VInt n) ∨ (∃ text, v = VStr text) ->
  (returned (run h (PersonView.get view reference hp) w)).1
  = Raised (AttributeError "reference").
Proof.
  intros Hrepo Hv. rewrite view_get_run, Hrepo. cbn [returned fst].
  by destruct Hv as [->|[[n ->]|[text ->]]].
Qed.

End View_runs.

Lemma view_get_status_witness :
  (returned (run (stub_repo (Raised EntityDoesNotExist))
               (PersonView.get (PersonView.Build 1%positive) (VStr "missing") ∅) ())).1
    = Ok ({["error" := VStr "Person does not exist!"]}, 404)
  ∧ ((404 = 404
      ∧ ({["error" := VStr "Person does not exist!"]} : dict)
        = {["error" := VStr "Person does not exist!"]}
      ∧ (stub_repo (Raised EntityDoesNotExist)
           (person_repo_get_person (VStr "missing")) ()).1 = Raised EntityDoesNotExist)
     ∨ (404 = 200
        ∧ ∃ person, (stub_repo (Raised EntityDoesNotExist)
                       (person_repo_get_person (VStr "missing")) ()).1 = Ok person
                    ∧ PersonSerializer.serialize person
                      = Ok {["error" := VStr "Person does not exist!"]})).
Proof.
  split; [reflexivity|].
  apply (view_get_status (stub_repo (Raised EntityDoesNotExist))
           (PersonView.Build 1%positive) (VStr "missing") ∅ ()).
  reflexivity.
Defined.

Lemma view_get_non_person_witness :
  (stub_repo (Ok VNone) (person_repo_get_person (VStr "abc")) ()).1 = Ok VNone
  ∧ (VNone = VNone ∨ (∃ n, VNone = VInt n) ∨ (∃ text, VNone = VStr text))
  ∧ (returned (run (stub_repo (Ok VNone))
                 (PersonView.get (PersonView.Build 1%positive) (VStr "abc") ∅) ())).1
    = Raised (AttributeError "reference").
Proof.
  split; [reflexivity|]. split; [by left|].
  apply (view_get_non_person (stub_repo (Ok VNone))
           (PersonView.Build 1%positive) (VStr "abc") ∅ () VNone);
    [reflexivity|by left].
Defined.

(** ** Factories *)

(** X18. Two views from the factory never share an interactor: each
    [create] makes a new one, at an address that was free, and leaves the
    interactors that existed as they were. *)
Theorem create_twice {E} (hp : UseCaseInteractor.heap) :
  ∃ i1 i2 hp',
    (v1 ← PersonViewFactory.create; v2 ← PersonViewFactory.create; mret (v1, v2)) hp
    = Ret (E := E) (Ok (PersonView.Build i1, PersonView.Build i2), hp')
    ∧ i1 ≠ i2
    ∧ hp !! i1 = None ∧ hp !! i2 = None
    ∧ hp' !! i1 = Some (UseCaseInteractor.Build None)
    ∧ hp' !! i2 = Some (UseCaseInteractor.Build None)
    ∧ hp ⊆ hp'.
Proof.
  set (i1 := fresh (dom hp)).
  set (hp1 := <[i1 := UseCaseInteractor.Build None]> hp).
  set (i2 := fresh (dom hp1)).
  exists i1, i2, (<[i2 := UseCaseInteractor.Build None]> hp1).
  assert (hp !! i1 = None) as H1 by apply not_elem_of_dom, is_fresh.
  assert (hp1 !! i2 = None) as H2 by apply not_elem_of_dom, is_fresh.
  assert (i1 ≠ i2) as Hne.
  { intros Heq. rewrite <- Heq in H2. unfold hp1 in H2.
    by rewrite lookup_insert_eq in H2. }
  split; [reflexivity|]. split; [done|]. split; [done|].
  split. { unfold hp1 in H2. by rewrite lookup_insert_ne in H2. }
  split. { rewrite lookup_insert_ne by done. apply lookup_insert_eq. }
  split; [apply lookup_insert_eq|].
  etrans; [by apply (insert_subseteq hp i1)|]. by apply insert_subseteq.
Qed.

(** ** The request, with every layer wired in *)

Lemma link_trace_nil {E1 E2 W A} (h : handler E2 W)
    (impl : E1 -> prog E2 (outcome value)) (p : prog E1 A) (w : W) :
  trace (run (implemented h impl) p w) = [] ->
  trace (run h (link impl p) w) = [].
Proof. by destruct p. Qed.

(** A program that makes one call makes, once linked, the calls of that
    call's implementation. *)
Lemma link_trace_single {E1 E2 W A} (h : handler E2 W)
    (impl : E1 -> prog E2 (outcome value)) (p : prog E1 A) (w : W) (e : E1) :
  trace (run (implemented h impl) p w) = [e] ->
  trace (run h (link impl p) w) = trace (run h (impl e) w).
Proof.
  destruct p as [a|e' k]; [done|]. simpl. intros [= -> Hrest].
  rewrite run_pbind. cbn [trace].
  apply link_trace_nil in Hrest. unfold implemented in Hrest. simpl in Hrest.
  by rewrite Hrest, app_nil_r.
Qed.

Lemma create_run {E W} (h : handler E W) (hp : UseCaseInteractor.heap) (w : W) :
  run h (PersonViewFactory.create hp) w
  = RunResult
      (Ok (PersonView.Build (fresh (dom hp))),
       <[fresh (dom hp) := UseCaseInteractor.Build None]> hp) w [].
Proof. reflexivity. Qed.

Lemma call_get_reference (view : PersonView.t) (kwargs : dict) (reference : value) :
  kwargs !! "reference" = Some reference ->
  size kwargs = 1%nat ->
  Request.call_get view kwargs = PersonView.get view reference.
Proof.
  intros Hkw Hsize. unfold Request.call_get. rewrite Hkw. by case_decide.
Qed.

Lemma call_get_other (view : PersonView.t) (kwargs : dict) :
  kwargs !! "reference" = None ∨ size kwargs ≠ 1%nat ->
  Request.call_get view kwargs = raise (OtherError "TypeError").
Proof.
  unfold Request.call_get. intros [->|Hsize]; [done|].
  destruct (kwargs !! "reference"); [|done]. by case_decide.
Qed.

Section Respond.

Context {W : Type} (h : handler repo_call W) (json_dumps : dict -> outcome string).

Implicit Types (reference : value) (hp : UseCaseInteractor.heap) (w : W).

(** The response by what the repository answers. *)
Lemma respond_run (kwargs : dict) reference hp w :
  kwargs !! "reference" = Some reference ->
  size kwargs = 1%nat ->
  run h (Request.respond json_dumps kwargs hp) w
  = RunResult
      (match (h (person_repo_get_person reference) w).1 with
       | Ok person =>
           match PersonSerializer.serialize person with
           | Ok body =>
               match json_dumps body with
               | Ok text => Ok (HttpResponse.Build text 200 "application/json")
               | Raised e => Raised e
               end
           | Raised e => Raised e
           end
       | Raised EntityDoesNotExist =>
           match json_dumps {["error" := VStr "Person does not exist!"]} with
           | Ok text => Ok (HttpResponse.Build text 404 "application/json")
           | Raised e => Raised e
           end
       | Raised e => Raised e
       end,
       <[fresh (dom hp) := UseCaseInteractor.Build (Some reference)]> hp)
      (h (person_repo_get_person reference) w).2
      [person_repo_get_person reference].
Proof.
  intros Hkw Hsize. unfold Request.respond. rewrite run_mbind, create_run.
  cbn [returned world trace].
  rewrite run_mbind, (call_get_reference _ _ _ Hkw Hsize), view_get_run.
  cbn [returned world trace PersonView.get_person_interactor]. rewrite insert_insert_eq.
  destruct (h (person_repo_get_person reference) w).1 as [person|e].
  - destruct (PersonSerializer.serialize person) as [body|e]; [|reflexivity].
    rewrite run_mbind. unfold lift. simpl.
    destruct (json_dumps body); reflexivity.
  - destruct e; try reflexivity.
    rewrite run_mbind. unfold lift. simpl.
    destruct (json_dumps _); reflexivity.
Qed.

Lemma respond_other_run (kwargs : dict) hp w :
  kwargs !! "reference" = None ∨ size kwargs ≠ 1%nat ->
  run h (Request.respond json_dumps kwargs hp) w
  = RunResult
      (Raised (OtherError "TypeError"),
       <[fresh (dom hp) := UseCaseInteractor.Build None]> hp) w [].
Proof.
  intros Hkw. unfold Request.respond. rewrite run_mbind, create_run.
  cbn [returned world trace]. rewrite run_mbind, (call_get_other _ _ Hkw).
  reflexivity.
Qed.

End Respond.

Section Request.

Context {C D : Type} `{!CacheRepo C} `{!DbRepo D} (json_dumps : dict -> outcome string).

Implicit Types (reference : value) (hp : UseCaseInteractor.heap) (w : C * D).

(** The request by what one [PersonRepo.get_person] produces. *)
Lemma request_run reference hp w :
  trace (run stores (Request.get json_dumps {["reference" := reference]} hp) w)
    = trace (run stores (PersonRepo.get_person reference ()) w)
  ∧ world (run stores (Request.get json_dumps {["reference" := reference]} hp) w)
    = world (run stores (PersonRepo.get_person reference ()) w)
  ∧ (returned (run stores (Request.get json_dumps {["reference" := reference]} hp) w)).1
    = match (returned (run stores (PersonRepo.get_person reference ()) w)).1 with
      | Ok person =>
          match PersonSerializer.serialize person with
          | Ok body =>
              match json_dumps body with
              | Ok text => Ok (HttpResponse.Build text 200 "application/json")
              | Raised e => Raised e
              end
          | Raised e => Raised e
          end
      | Raised EntityDoesNotExist =>
          match json_dumps {["error" := VStr "Person does not exist!"]} with
          | Ok text => Ok (HttpResponse.Build text 404 "application/json")
          | Raised e => Raised e
          end
      | Raised e => Raised e
      end.
Proof.
  assert (({["reference" := reference]} : dict) !! "reference" = Some reference)
    as Hkw by apply lookup_singleton_eq.
  assert (size ({["reference" := reference]} : dict) = 1%nat)
    as Hsize by apply map_size_singleton.
  unfold Request.get. split; [|split].
  - rewrite (link_trace_single _ _ _ _ (person_repo_get_person reference)).
    + unfold PersonRepoFactory.get. rewrite run_pbind. cbn [trace run].
      apply app_nil_r.
    + by rewrite (respond_run _ _ _ reference).
  - destruct (run_link stores PersonRepoFactory.get
                (Request.respond json_dumps {["reference" := reference]} hp) w)
      as [_ ->].
    rewrite (respond_run _ _ _ reference) by done. cbn [world].
    by rewrite implemented_repo.
  - destruct (run_link stores PersonRepoFactory.get
                (Request.respond json_dumps {["reference" := reference]} hp) w)
      as [-> _].
    rewrite (respond_run _ _ _ reference) by done. cbn [returned fst].
    by rewrite implemented_repo.
Qed.

(** X19. A request for a reference makes exactly the store calls of one
    [PersonRepo.get_person] for that reference, whatever the stores and the
    encoder do: the cache lookup first, at most one database lookup and at
    most one cache write. *)
Theorem request_store_calls reference hp w :
  trace (run stores (Request.get json_dumps {["reference" := reference]} hp) w)
    = trace (run stores (PersonRepo.get_person reference ()) w)
  ∧ (db_queries
       (trace (run stores (Request.get json_dumps {["reference" := reference]} hp) w))
     <= 1)%nat
  ∧ (cache_writes
       (trace (run stores (Request.get json_dumps {["reference" := reference]} hp) w))
     <= 1)%nat.
Proof.
  assert (trace (run stores (Request.get json_dumps {["reference" := reference]} hp) w)
          = trace (run stores (PersonRepo.get_person reference ()) w)) as ->.
  { unfold Request.get.
    rewrite (link_trace_single _ _ _ _ (person_repo_get_person reference)).
    - unfold PersonRepoFactory.get. rewrite run_pbind. cbn [trace run].
      apply app_nil_r.
    - rewrite (respond_run _ _ _ reference); [done| |apply map_size_singleton].
      apply lookup_singleton_eq. }
  split; [done|]. destruct w as [c d]. rewrite get_person_run.
  unfold db_queries, cache_writes.
  destruct (cache_get_person reference c).1 as [[]|];
    destruct (db_get_person reference d).1; simpl; auto.
Qed.

(** X20. A request whose keyword arguments are not just [reference] fails
    with [TypeError] before any store is called. *)
Theorem request_bad_kwargs (kwargs : dict) hp w :
  kwargs !! "reference" = None ∨ size kwargs ≠ 1%nat ->
  (returned (run stores (Request.get json_dumps kwargs hp) w)).1
    = Raised (OtherError "TypeError")
  ∧ trace (run stores (Request.get json_dumps kwargs hp) w) = []
  ∧ world (run stores (Request.get json_dumps kwargs hp) w) = w.
Proof.
  intros Hkw. unfold Request.get.
  destruct (run_link stores PersonRepoFactory.get
              (Request.respond json_dumps kwargs hp) w) as [-> ->].
  rewrite link_trace_nil; rewrite (respond_other_run _ _ _ _ _ Hkw); done.
Qed.


End Request.

Section Request_database.

Context {C D : Type} `{!CacheRepo C} `{!PersonDatabaseRepo.Objects D}
  (json_dumps : dict -> outcome string).

Implicit Types (reference : value) (hp : UseCaseInteractor.heap) (c : C) (d : D).

(** X22. From the ORM to the response: when the cache misses and the ORM
    lookup raises [DoesNotExist], the response has status 404, content type
    [application/json] and the encoded error body as content, and the
    cache is not written. *)
Theorem request_not_found reference c c1 d d1 hp text :
  cache_get_person reference c = (Ok VNone, c1) ->
  PersonDatabaseRepo.objects_get reference d = (Raised DoesNotExist, d1) ->
  json_dumps {["error" := VStr "Person does not exist!"]} = Ok text ->
  (returned (run stores (Request.get json_dumps {["reference" := reference]} hp) (c, d))).1
    = Ok (HttpResponse.Build text 404 "application/json")
  ∧ world (run stores (Request.get json_dumps {["reference" := reference]} hp) (c, d))
    = (c1, d1)
  ∧ trace (run stores (Request.get json_dumps {["reference" := reference]} hp) (c, d))
    = [cache_repo_get_person reference; db_repo_get_person reference].
Proof.
  intros Hc Hd Hjson.
  assert (db_get_person reference d = (Raised EntityDoesNotExist, d1)) as Hdb.
  { unfold db_get_person, PersonDatabaseRepo.db_repo, PersonDatabaseRepo.get_person.
    by rewrite Hd. }
  destruct (request_run json_dumps reference hp (c, d)) as (-> & -> & ->).
  rewrite (get_person_db_raises _ _ _ _ _ _ () Hc Hdb). cbn [returned world trace fst].
  by rewrite Hjson.
Qed.

(** X23. From the ORM to the response: when the cache misses, the ORM
    lookup returns a row, [save_person] returns on the Person decoded from
    the row, and the encoder returns a text for the dict that binds
    [reference] and [department_id] to the row's two fields, that Person
    has been saved to the cache and the response has status 200 and that
    text as content. *)
Theorem request_found_in_database reference c c1 c2 d d1 hp row ret text :
  cache_get_person reference c = (Ok VNone, c1) ->
  PersonDatabaseRepo.objects_get reference d = (Ok row, d1) ->
  cache_save_person (PersonDatabaseRepo._decode_orm_person row) c1 = (Ok ret, c2) ->
  json_dumps (<["reference" := PersonDatabaseRepo.orm_reference row]>
                (<["department_id" := PersonDatabaseRepo.orm_department_id row]> ∅))
    = Ok text ->
  (returned (run stores (Request.get json_dumps {["reference" := reference]} hp) (c, d))).1
    = Ok (HttpResponse.Build text 200 "application/json")
  ∧ world (run stores (Request.get json_dumps {["reference" := reference]} hp) (c, d))
    = (c2, d1)
  ∧ trace (run stores (Request.get json_dumps {["reference" := reference]} hp) (c, d))
    = [cache_repo_get_person reference; db_repo_get_person reference;
       cache_repo_save_person (PersonDatabaseRepo._decode_orm_person row)].
Proof.
  intros Hc Hd Hs Hjson.
  assert (db_get_person reference d
          = (Ok (PersonDatabaseRepo._decode_orm_person row), d1)) as Hdb.
  { unfold db_get_person, PersonDatabaseRepo.db_repo, PersonDatabaseRepo.get_person.
    by rewrite Hd. }
  destruct (request_run json_dumps reference hp (c, d)) as (-> & -> & ->).
  rewrite (get_person_db_returns _ _ _ _ _ _ () Hc Hdb), Hs.
  cbn [returned world trace fst snd].
  unfold PersonDatabaseRepo._decode_orm_person. rewrite serialize_Person.
  by rewrite Hjson.
Qed.

End Request_database.

Lemma request_bad_kwargs_witness :
  ((∅ : dict) !! "reference" = None ∨ size (∅ : dict) ≠ 1%nat)
  ∧ (returned (run stores (Request.get (stub_json "null") ∅ ∅)
                 (sample_entries, sample_table))).1
    = Raised (OtherError "TypeError").
Proof.
  split; [by left|].
  apply (request_bad_kwargs (stub_json "null") ∅ ∅ (sample_entries, sample_table)).
  by left.
Defined.

Lemma request_not_found_witness :
  cache_get_person (VStr "nobody") sample_entries = (Ok VNone, sample_entries)
  ∧ PersonDatabaseRepo.objects_get (VStr "nobody") sample_table
    = (Raised DoesNotExist, sample_table)
  ∧ (returned (run stores
                 (Request.get (stub_json "null") {["reference" := VStr "nobody"]} ∅)
                 (sample_entries, sample_table))).1
    = Ok (HttpResponse.Build "null" 404 "application/json").
Proof.
  split; [reflexivity|]. split; [reflexivity|].
  apply (request_not_found (stub_json "null") (VStr "nobody")
           sample_entries sample_entries sample_table sample_table ∅ "null");
    reflexivity.
Defined.

Lemma request_found_in_database_witness :
  cache_get_person (VStr "abc") sample_entries = (Ok VNone, sample_entries)
  ∧ PersonDatabaseRepo.objects_get (VStr "abc") sample_table
    = (Ok (PersonDatabaseRepo.Row (VStr "abc") (VInt 5)), sample_table)
  ∧ (returned (run stores
                 (Request.get (stub_json "null") {["reference" := VStr "abc"]} ∅)
                 (sample_entries, sample_table))).1
    = Ok (HttpResponse.Build "null" 200 "application/json").
Proof.
  split; [reflexivity|]. split; [reflexivity|].
  apply (request_found_in_database (stub_json "null") (VStr "abc")
           sample_entries sample_entries
           (<[VStr "abc" := Person (VStr "abc") (VInt 5)]> sample_entries)
           sample_table sample_table ∅
           (PersonDatabaseRepo.Row (VStr "abc") (VInt 5)) VNone "null");
    reflexivity.
Defined.
